(** * pubplots: scaling helper, rcParams table and scoped destination

    A shallow embedding of [src/pubplots/pubplots.py].

    - Python numbers: [int] is [Z], [float] is the kernel's binary64
      [float]; the arithmetic operators raise what CPython raises.
    - [scale], [get_rc_params] and [destination] are translated
      statement by statement; code that reads or writes the module-level
      context variable or matplotlib's rcParams lives in a small
      state-and-exception monad. *)

From Stdlib Require Import ZArith QArith Lia.
From Stdlib Require Import Floats.PrimFloat Floats.SpecFloat Floats.FloatOps.
From stdpp Require Import base option list gmap strings.

Close Scope Q_scope.
Local Open Scope Z_scope.

(** ** Exceptions and results *)

(** The exceptions the modelled code can meet.  [PyExc] stands for any
    other exception a caller's block may raise. *)
Inductive exn : Type :=
  | OverflowError
  | ZeroDivisionError
  | TypeError
  | KeyError
  | ValueError
  | PyExc (name : string).

(** The outcome of evaluating an expression: a value, or a raised
    exception. *)
Inductive result (A : Type) : Type :=
  | Ok (a : A)
  | Raise (e : exn).
Arguments Ok {A} a.
Arguments Raise {A} e.

#[global] Instance result_ret : MRet result := @Ok.
#[global] Instance result_bind : MBind result := fun A B k r =>
  match r with
  | Ok a => k a
  | Raise e => Raise e
  end.
#[global] Instance result_fmap : FMap result := fun A B g r =>
  match r with
  | Ok a => Ok (g a)
  | Raise e => Raise e
  end.

(** ** Python numbers *)

Module Py.

(** [int | float]. *)
Inductive num : Type :=
  | PyInt (z : Z)
  | PyFloat (f : float).

(** [float(z)]: the nearest binary64 value, ties to even;
    [OverflowError] when that value is not finite. *)
Definition float_of_int (z : Z) : result float :=
  let f := SF2Prim (binary_normalize prec emax z 0 false) in
  if is_infinity f then Raise OverflowError else Ok f.

(** [a / b] on two ints: the correctly rounded quotient, computed on
    the integers themselves. *)
Definition int_truediv (a b : Z) : result float :=
  match a, b with
  | _, Z0 => Raise ZeroDivisionError
  | Z0, _ => Ok (if b <? 0 then neg_zero else zero)
  | Zpos p, Zpos q | Zneg p, Zneg q =>
      let f := SF2Prim (SFdiv prec emax (S754_finite false p 0) (S754_finite false q 0)) in
      if is_infinity f then Raise OverflowError else Ok f
  | Zpos p, Zneg q | Zneg p, Zpos q =>
      let f := SF2Prim (SFdiv prec emax (S754_finite true p 0) (S754_finite false q 0)) in
      if is_infinity f then Raise OverflowError else Ok f
  end.

(** The float operand an arithmetic operator works on when the other
    operand is a float. *)
Definition to_float (x : num) : result float :=
  match x with
  | PyInt z => float_of_int z
  | PyFloat f => Ok f
  end.

(** [x * y] on numbers. *)
Definition mul (x y : num) : result num :=
  match x, y with
  | PyInt a, PyInt b => Ok (PyInt (a * b))
  | _, _ =>
      a ← to_float x; b ← to_float y; Ok (PyFloat (PrimFloat.mul a b))
  end.

(** [x / y] on numbers. *)
Definition truediv (x y : num) : result num :=
  match x, y with
  | PyInt a, PyInt b => PyFloat <$> int_truediv a b
  | _, _ =>
      a ← to_float x; b ← to_float y;
      if is_zero b then Raise ZeroDivisionError
      else Ok (PyFloat (PrimFloat.div a b))
  end.

(** The rational a finite float stands for; [None] for infinities and
    NaN. *)
Definition exact (f : float) : option Q :=
  match Prim2SF f with
  | S754_zero _ => Some (0 # 1)%Q
  | S754_finite s m e =>
      Some (Qmult (if s then (Zneg m # 1) else (Zpos m # 1)) (Qpower (2 # 1) e))
  | _ => None
  end.

(** A float stands for exactly the rational [q]. *)
Definition is_exactly (f : float) (q : Q) : Prop :=
  match exact f with
  | Some r => Qeq r q
  | None => False
  end.

End Py.
Import Py.

(** ** Values of [scale] *)

(** [int | float | tuple[int | float, ...]], the annotated type of the
    positional arguments and of the return value of [scale]. *)
Inductive value : Type :=
  | Num (n : num)
  | Tuple (t : list num).

(** [v * scaling_factor] for a float [scaling_factor]: the product of
    two numbers; a tuple cannot be multiplied by a float. *)
Definition py_mul (v : value) (scaling_factor : float) : result num :=
  match v with
  | Num n => Py.mul n (PyFloat scaling_factor)
  | Tuple _ => Raise TypeError
  end.

(** ** Program state *)

(** The values found in an rcParams table. *)
Inductive rc_value : Type :=
  | RcStr (s : string)
  | RcList (l : list string)
  | RcNum (n : num)
  | RcBool (b : bool).

(** The two pieces of state the module touches: the module-level
    context variable [_scaling_ctx] ([None] while it has never been
    set) and matplotlib's process-wide [rcParams]. *)
Record state : Type := State {
  scaling_ctx : option float;
  rcParams : gmap string rc_value
}.

(** Code that runs against the state and may raise. *)
Definition M (A : Type) : Type := state -> state * result A.

#[global] Instance M_ret : MRet M := fun A a st => (st, Ok a).
#[global] Instance M_bind : MBind M := fun A B k m st =>
  match m st with
  | (st', Ok a) => k a st'
  | (st', Raise e) => (st', Raise e)
  end.

(** An expression that does not touch the state. *)
Definition lift {A} (r : result A) : M A := fun st => (st, r).

(** [try: body finally: handler]. *)
Definition try_finally {A} (body : M A) (handler : M unit) : M A := fun st =>
  let '(st1, r) := body st in
  match handler st1 with
  | (st2, Ok _) => (st2, r)
  | (st2, Raise e) => (st2, Raise e)
  end.

(** *** The context variable

    [_scaling_ctx = ContextVar("scaling", default=1.0)]. *)

Definition scaling_default : float := 1%float.

(** [_scaling_ctx.get()]. *)
Definition scaling_ctx_get : M float := fun st =>
  (st, Ok (default scaling_default (scaling_ctx st))).

(** [_scaling_ctx.set(v)]: the token remembers what the variable held. *)
Definition scaling_ctx_set (v : float) : M (option float) := fun st =>
  (State (Some v) (rcParams st), Ok (scaling_ctx st)).

(** [_scaling_ctx.reset(token)]. *)
Definition scaling_ctx_reset (token : option float) : M unit := fun st =>
  (State token (rcParams st), Ok tt).

(** ** [scale] *)

Definition scale (values : list value) (scaling_factor : option float) : M value :=
  scaling_factor ←
    match scaling_factor with
    | None => scaling_ctx_get
    | Some f => mret f
    end;
  match values with
  | [values] =>
      match values with
      | Tuple t =>
          lift (Tuple <$> mapM (fun v => py_mul (Num v) scaling_factor) t)
      | Num _ =>
          lift (Num <$> py_mul values scaling_factor)
      end
  | _ =>
      lift (Tuple <$> mapM (fun v => py_mul v scaling_factor) values)
  end.

(** ** [get_rc_params] *)

(** Lookup in a dict literal, kept as the list of its items in source
    order. *)
Fixpoint dict_get {V} (d : list (string * V)) (key : string) : option V :=
  match d with
  | [] => None
  | (k, v) :: rest => if String.eqb k key then Some v else dict_get rest key
  end.

Definition get_rc_params (destination : string)
  : result (list (string * rc_value) * (list value -> M value)) :=
  scaling ←
    (if String.eqb destination "figma"
     then int_truediv 300 96
     else Ok 1%float);
  font_size ← Py.mul (PyInt 6) (PyFloat scaling);
  axes_titlesize ← Py.mul (PyInt 6) (PyFloat scaling);
  axes_labelsize ← Py.mul (PyInt 6) (PyFloat scaling);
  xtick_labelsize ← Py.mul (PyInt 5) (PyFloat scaling);
  ytick_labelsize ← Py.mul (PyInt 5) (PyFloat scaling);
  legend_fontsize ← Py.mul (PyInt 6) (PyFloat scaling);
  figure_titlesize ← Py.mul (PyInt 7) (PyFloat scaling);
  figure_labelsize ← Py.mul (PyInt 7) (PyFloat scaling);
  figure_dpi ← Py.truediv (PyInt 150) (PyFloat scaling);
  let rc_params :=
    [ ("font.family", RcStr "sans-serif");
      ("font.sans-serif", RcList ["Arial"]);
      ("font.size", RcNum font_size);
      ("axes.titlesize", RcNum axes_titlesize);
      ("axes.labelsize", RcNum axes_labelsize);
      ("xtick.labelsize", RcNum xtick_labelsize);
      ("ytick.labelsize", RcNum ytick_labelsize);
      ("legend.fontsize", RcNum legend_fontsize);
      ("figure.titlesize", RcNum figure_titlesize);
      ("figure.labelsize", RcNum figure_labelsize);
      ("figure.dpi", RcNum figure_dpi);
      ("figure.autolayout", RcBool true);
      ("savefig.dpi", RcNum (PyInt 300));
      ("savefig.format", RcStr "svg");
      ("svg.fonttype", RcStr "none");
      ("pdf.fonttype", RcNum (PyInt 42)) ] in
  let _scale := fun values => scale values (Some scaling) in
  Ok (rc_params, _scale).

(** ** [destination] *)

(** The float a [ContextVar[float]] is given: [scale] hands back a
    float for a float argument, and nothing else is stored. *)
Definition as_float (v : value) : result float :=
  match v with
  | Num (PyFloat f) => Ok f
  | _ => Raise TypeError
  end.

(** The name [destination] takes when called without one. *)
Definition destination_default : string := "default".

Section Matplotlib.

(** Modelled from the spec: the plotting library's configuration
    store is an external collaborator that may reject an unknown or
    malformed setting.  matplotlib checks every assignment to
    [rcParams]: a setting is stored as the validator returns it, or the
    assignment raises.  The validator is left open. *)
Variable rc_validate : string -> rc_value -> result rc_value.

(** Modelled from the spec: [rcParams[key] = val], an assignment the
    store validates. *)
Definition rc_setitem (key : string) (val : rc_value) : M unit := fun st =>
  match rc_validate key val with
  | Ok v => (State (scaling_ctx st) (<[key := v]> (rcParams st)), Ok tt)
  | Raise e => (st, Raise e)
  end.

(** Modelled from the spec: [rcParams.update(rc)], the table applied
    item by item, in order; the first rejected item raises. *)
Fixpoint rc_update (rc : list (string * rc_value)) : M unit :=
  match rc with
  | [] => mret tt
  | (key, val) :: rest => rc_setitem key val ;; rc_update rest
  end.

(** Modelled from the spec: [mpl.rc_context] is matplotlib's scoped
    override of the process-wide configuration, not part of this
    repository.  On entry it remembers the configuration and applies
    [rc]; on leaving the block, normally or by an exception, it puts
    the remembered configuration back. *)
Definition rc_context {A} (rc : list (string * rc_value)) (body : M A) : M A :=
  fun st =>
    let orig := rcParams st in
    try_finally
      (rc_update rc ;; body)
      (fun st' => (State (scaling_ctx st') orig, Ok tt))
      st.

(** [with destination(dest): body].  The generator runs up to its
    [yield], the caller's block runs, and the generator is resumed (or
    the block's exception is raised at the [yield]). *)
Definition destination {A} (dest : string) (body : M A) : M A :=
  '(params, scaler) ← lift (get_rc_params dest);
  one ← scaler [Num (PyFloat 1)];
  factor ← lift (as_float one);
  token ← scaling_ctx_set factor;
  try_finally
    (rc_context params body)
    (scaling_ctx_reset token).

(** *** The scenarios of the testable properties *)

(** [with destination("figma"): a = scale(2.0)], then [b = scale(2.0)]. *)
Definition roundtrip : M (value * value) :=
  a ← destination "figma" (scale [Num (PyFloat 2)] None);
  b ← scale [Num (PyFloat 2)] None;
  mret (a, b).

(** [with destination("figma"):]
    [    with destination("default"): a = scale(1.0)]
    [    b = scale(1.0)]
    [c = scale(1.0)]. *)
Definition nesting : M (value * value * value) :=
  '(a, b) ← destination "figma"
              (a ← destination "default" (scale [Num (PyFloat 1)] None);
               b ← scale [Num (PyFloat 1)] None;
               mret (a, b));
  c ← scale [Num (PyFloat 1)] None;
  mret (a, b, c).

(** The caller's block that only reports the state it starts in. *)
Definition observe : M state := fun st => (st, Ok st).

End Matplotlib.

(** The validator that accepts every setting as given. *)
Definition accept_all (key : string) (val : rc_value) : result rc_value := Ok val.

(** The state of a fresh interpreter: the context variable never set. *)
Definition fresh (rc : gmap string rc_value) : state := State None rc.


(** A block that overwrites both pieces of state and then raises. *)
Definition clobber_and_raise : M unit := fun _ =>
  (State (Some 9%float) (<["font.size" := RcNum (PyInt 99)]> ∅),
   Raise (PyExc "boom")).

(** The factor the documentation assigns to a destination: [300/96]
    for ["figma"], [1.0] for anything else. *)
Definition spec_factor (dest : string) : float :=
  if String.eqb dest "figma" then 3.125%float else 1%float.

(** matplotlib takes every setting of a table. *)
Definition accepted (rc_validate : string -> rc_value -> result rc_value)
    (rc : list (string * rc_value)) : Prop :=
  Forall (fun kv => exists v, rc_validate kv.1 kv.2 = Ok v) rc.

(** matplotlib takes every setting [get_rc_params] builds for [dest]. *)
Definition accepts (rc_validate : string -> rc_value -> result rc_value)
    (dest : string) : Prop :=
  forall rc scaler, get_rc_params dest = Ok (rc, scaler) -> accepted rc_validate rc.

(** The settings of the table whose value depends on the factor. *)
Definition scaled_keys : list string :=
  [ "font.size"; "axes.titlesize"; "axes.labelsize"; "xtick.labelsize";
    "ytick.labelsize"; "legend.fontsize"; "figure.titlesize";
    "figure.labelsize"; "figure.dpi" ].

(** The keys of the dict literal in [get_rc_params], in source order. *)
Definition rc_keys : list string :=
  [ "font.family"; "font.sans-serif"; "font.size"; "axes.titlesize";
    "axes.labelsize"; "xtick.labelsize"; "ytick.labelsize";
    "legend.fontsize"; "figure.titlesize"; "figure.labelsize";
    "figure.dpi"; "figure.autolayout"; "savefig.dpi"; "savefig.format";
    "svg.fonttype"; "pdf.fonttype" ].

(** A value made of floats only. *)
Definition is_float_num (n : num) : Prop :=
  match n with
  | PyFloat _ => True
  | PyInt _ => False
  end.

Definition is_float_value (v : value) : Prop :=
  match v with
  | Num n => is_float_num n
  | Tuple t => Forall is_float_num t
  end.

(** A validator that does not know the setting [bad], and takes every
    other one as given. *)
Definition reject_key (bad : string) (key : string) (val : rc_value)
  : result rc_value :=
  if String.eqb key bad then Raise KeyError else Ok val.

(** [with destination(d1):]
    [    with destination(d2): a = scale(x)]
    [    b = scale(x)]
    [c = scale(x)]. *)
Definition nested_scopes (rc_validate : string -> rc_value -> result rc_value)
    (d1 d2 : string) (x : float) : M (value * value * value) :=
  '(a, b) ← destination rc_validate d1
              (a ← destination rc_validate d2 (scale [Num (PyFloat x)] None);
               b ← scale [Num (PyFloat x)] None;
               mret (a, b));
  c ← scale [Num (PyFloat x)] None;
  mret (a, b, c).

(** * Properties *)

(** ** Results of a generator expression *)

Section MapM.
Context {A B : Type} (g : A -> result B).

Lemma mapM_Ok_Forall2 (l : list A) (k : list B) :
  Forall2 (fun x y => g x = Ok y) l k -> mapM g l = Ok k.
Proof.
  induction 1 as [|x y l k Hxy _ IH]; [reflexivity|].
  cbn. rewrite Hxy. cbn. rewrite IH. reflexivity.
Qed.

Lemma mapM_defined (l : list A) :
  Forall (fun x => exists y, g x = Ok y) l ->
  exists k, Forall2 (fun x y => g x = Ok y) l k.
Proof.
  induction 1 as [|x l [y Hy] _ [k IH]].
  - exists []. constructor.
  - exists (y :: k). constructor; assumption.
Qed.

Lemma mapM_Raise (l1 l2 : list A) (x : A) (e : exn) :
  Forall (fun x => exists y, g x = Ok y) l1 -> g x = Raise e ->
  mapM g (l1 ++ x :: l2) = Raise e.
Proof.
  induction 1 as [|a l [y Hy] _ IH]; intros Hx; cbn.
  - rewrite Hx. reflexivity.
  - rewrite Hy. cbn. rewrite (IH Hx). reflexivity.
Qed.
End MapM.

(** ** [scale] *)

(** [scale] leaves the context variable and the configuration alone. *)
Lemma scale_pure (values : list value) (sf : option float) (st : state) :
  (scale values sf st).1 = st.
Proof.
  unfold scale. destruct sf as [f|]; cbn.
  - destruct values as [|[n|t] [|]]; reflexivity.
  - destruct values as [|[n|t] [|]]; reflexivity.
Qed.

(** Without an explicit factor [scale] uses the ambient one. *)
Lemma scale_ambient (values : list value) (st : state) :
  scale values None st
  = scale values (Some (default scaling_default (scaling_ctx st))) st.
Proof. reflexivity. Qed.

(** Some calls, evaluated. *)
Example scale_two_positional :
  scale [Num (PyInt 2); Num (PyFloat 2)] (Some 3.125%float) (fresh ∅)
  = (fresh ∅, Ok (Tuple [PyFloat 6.25; PyFloat 6.25])).
Proof. reflexivity. Qed.

Example scale_singleton_tuple :
  scale [Tuple [PyFloat 2]] (Some 3.125%float) (fresh ∅)
  = (fresh ∅, Ok (Tuple [PyFloat 6.25])).
Proof. reflexivity. Qed.

Example scale_unset_context :
  scale [Num (PyFloat 2)] None (fresh ∅) = (fresh ∅, Ok (Num (PyFloat 2))).
Proof. reflexivity. Qed.

Example scale_set_context :
  scale [Num (PyFloat 2)] None (State (Some 3.125%float) ∅)
  = (State (Some 3.125%float) ∅, Ok (Num (PyFloat 6.25))).
Proof. reflexivity. Qed.

Example scale_tuples_positional :
  scale [Tuple [PyInt 1]; Tuple [PyInt 2]] (Some 2%float) (fresh ∅)
  = (fresh ∅, Raise TypeError).
Proof. reflexivity. Qed.

Example scale_huge_int :
  scale [Num (PyInt (2 ^ 1024))] (Some 1.5%float) (fresh ∅)
  = (fresh ∅, Raise OverflowError).
Proof. vm_compute. reflexivity. Qed.

(** The product of two floats never raises. *)
Lemma mul_float_float (a f : float) :
  Py.mul (PyFloat a) (PyFloat f) = Ok (PyFloat (PrimFloat.mul a f)).
Proof. reflexivity. Qed.

(** C3: for every number [x] and factor [f], [scale(x, scaling_factor=f)]
    is the scalar [x * f]: it evaluates as the product does, hands back
    the product of two floats as a scalar, and never yields a tuple. *)
Theorem scale_scalar (x : num) (f : float) (st : state) :
  scale [Num x] (Some f) st = (st, Num <$> Py.mul x (PyFloat f))
  /\ (forall a : float,
        scale [Num (PyFloat a)] (Some f) st
        = (st, Ok (Num (PyFloat (PrimFloat.mul a f)))))
  /\ (forall t : list num, (scale [Num x] (Some f) st).2 <> Ok (Tuple t)).
Proof.
  split; [reflexivity|]. split; [reflexivity|].
  intros t. change ((Num <$> Py.mul x (PyFloat f)) <> Ok (Tuple t)).
  destruct (Py.mul x (PyFloat f)); discriminate.
Qed.

(** A single tuple is scaled by the generator over its elements. *)
Lemma scale_tuple_eq (S : list num) (f : float) (st : state) :
  scale [Tuple S] (Some f) st
  = (st, Tuple <$> mapM (fun x => Py.mul x (PyFloat f)) S).
Proof. reflexivity. Qed.

(** C4: for every tuple [S] of numbers and factor [f] (each product
    being defined), [scale(S, scaling_factor=f)] returns a tuple of
    the same length whose i-th element is [S[i] * f]. *)
Theorem scale_tuple (S : list num) (f : float) (st : state) :
  Forall (fun x => exists y, Py.mul x (PyFloat f) = Ok y) S ->
  exists r : list num,
    scale [Tuple S] (Some f) st = (st, Ok (Tuple r))
    /\ length r = length S
    /\ forall (i : nat) (x : num), S !! i = Some x ->
         exists y, r !! i = Some y /\ Py.mul x (PyFloat f) = Ok y.
Proof.
  intros Hdef.
  destruct (mapM_defined (fun x => Py.mul x (PyFloat f)) S Hdef) as [r Hr].
  exists r. split; [|split].
  - rewrite scale_tuple_eq, (mapM_Ok_Forall2 _ _ _ Hr). reflexivity.
  - symmetry. exact (Forall2_length _ _ _ Hr).
  - intros i x Hi.
    destruct (Forall2_lookup_l _ _ _ _ _ Hr Hi) as (y & Hy & Hxy).
    exists y. split; assumption.
Qed.

Lemma scale_tuple_witness :
  exists r : list num,
    scale [Tuple [PyInt 2; PyFloat 1.5]] (Some 3.125%float) (fresh ∅)
    = (fresh ∅, Ok (Tuple r))
    /\ length r = length [PyInt 2; PyFloat 1.5]
    /\ forall (i : nat) (x : num), [PyInt 2; PyFloat 1.5] !! i = Some x ->
         exists y, r !! i = Some y /\ Py.mul x (PyFloat 3.125) = Ok y.
Proof.
  apply (scale_tuple [PyInt 2; PyFloat 1.5] 3.125%float (fresh ∅)).
  repeat constructor; eexists; vm_compute; reflexivity.
Defined.

(** A tuple of floats is always scaled, element by element. *)
Lemma scale_tuple_floats (S : list float) (f : float) (st : state) :
  scale [Tuple (PyFloat <$> S)] (Some f) st
  = (st, Ok (Tuple ((fun a => PyFloat (PrimFloat.mul a f)) <$> S))).
Proof.
  rewrite scale_tuple_eq.
  rewrite (mapM_Ok_Forall2 _ (PyFloat <$> S) ((fun a => PyFloat (PrimFloat.mul a f)) <$> S));
    [reflexivity|].
  induction S; cbn; constructor; auto.
Qed.

(** The first product that raises is what [scale] raises. *)
Lemma scale_tuple_raises (S1 S2 : list num) (x : num) (e : exn) (f : float) (st : state) :
  Forall (fun x => exists y, Py.mul x (PyFloat f) = Ok y) S1 ->
  Py.mul x (PyFloat f) = Raise e ->
  scale [Tuple (S1 ++ x :: S2)] (Some f) st = (st, Raise e).
Proof.
  intros H1 Hx.
  rewrite scale_tuple_eq, (mapM_Raise _ _ _ _ _ H1 Hx). reflexivity.
Qed.

(** The generator over positional numbers and the generator over the
    elements of a tuple compute the same products. *)
Lemma mapM_py_mul_Num (l : list num) (f : float) :
  mapM (fun v => py_mul v f) (Num <$> l) = mapM (fun v => py_mul (Num v) f) l.
Proof.
  induction l as [|x l IH]; [reflexivity|].
  cbn. destruct (Py.mul x (PyFloat f)); cbn; [|reflexivity].
  cbn in IH. rewrite IH. reflexivity.
Qed.

(** Any number of positional numbers other than one is scaled as the
    tuple of them is. *)
Lemma scale_positional_as_tuple (l : list num) (sf : option float) (st : state) :
  length l <> 1%nat ->
  scale (Num <$> l) sf st = scale [Tuple l] sf st.
Proof.
  intros Hlen. unfold scale.
  destruct l as [|a [|b l]]; [reflexivity | contradiction Hlen; reflexivity |].
  change (Num <$> a :: b :: l) with (Num a :: Num b :: (Num <$> l)).
  cbv beta iota.
  destruct sf as [f|]; unfold mbind, M_bind, mret, M_ret, scaling_ctx_get, lift;
    do 2 f_equal; exact (mapM_py_mul_Num (a :: b :: l) _).
Qed.

(** C5: [scale(a, b, c, scaling_factor=f)] and
    [scale((a, b, c), scaling_factor=f)] are the same. *)
Theorem scale_args_as_tuple (a b c : num) (f : float) (st : state) :
  scale [Num a; Num b; Num c] (Some f) st = scale [Tuple [a; b; c]] (Some f) st.
Proof.
  apply (scale_positional_as_tuple [a; b; c] (Some f) st).
  cbn. discriminate.
Qed.

(** C10: [scale(scaling_factor=f)], with no positional argument, returns
    the empty tuple and raises nothing. *)
Theorem scale_no_args (f : float) (st : state) :
  scale [] (Some f) st = (st, Ok (Tuple []))
  /\ forall e : exn, (scale [] (Some f) st).2 <> Raise e.
Proof.
  split; [reflexivity|].
  intros e. discriminate.
Qed.

(** With an explicit factor the ambient state plays no part in the
    value [scale] computes. *)
Lemma scale_explicit_indep (values : list value) (f : float) (st st' : state) :
  (scale values (Some f) st).2 = (scale values (Some f) st').2.
Proof. destruct values as [|[n|t] [|]]; reflexivity. Qed.

(** ** [get_rc_params] *)

(** Every name is accepted: the table is built and the scaler is
    [scale] bound to the destination's factor. *)
Lemma get_rc_params_eq (dest : string) :
  exists rc_params,
    get_rc_params dest
    = Ok (rc_params, fun values => scale values (Some (spec_factor dest))).
Proof.
  unfold get_rc_params, spec_factor.
  destruct (String.eqb dest "figma"); eexists; reflexivity.
Qed.

(** The factors are exact: [3.125] is [300/96] and [1.0] is [1]. *)
Lemma factor_figma_exact : is_exactly 3.125%float (300 # 96)%Q.
Proof. vm_compute. reflexivity. Qed.

Lemma factor_default_exact : is_exactly 1%float (1 # 1)%Q.
Proof. vm_compute. reflexivity. Qed.

Lemma float_3125_neq_1 : 3.125%float <> 1%float.
Proof.
  intros H.
  assert (E : PrimFloat.eqb 3.125 1 = PrimFloat.eqb 1 1) by (rewrite H; reflexivity).
  vm_compute in E. discriminate E.
Qed.

(** C1: [get_rc_params] accepts every destination name; the factor it
    binds is [300/96 = 3.125] exactly for ["figma"] and [1.0] exactly
    for any other name, and it is [3.125] only for ["figma"]. *)
Theorem get_rc_params_factor (dest : string) :
  exists rc_params factor,
    get_rc_params dest
    = Ok (rc_params, fun values => scale values (Some factor))
    /\ factor = (if String.eqb dest "figma" then 3.125%float else 1%float)
    /\ (factor = 3.125%float <-> dest = "figma")
    /\ (factor = 1%float <-> dest <> "figma")
    /\ int_truediv 300 96 = Ok 3.125%float
    /\ is_exactly 3.125%float (300 # 96)%Q
    /\ is_exactly 1%float (1 # 1)%Q.
Proof.
  destruct (get_rc_params_eq dest) as [rc Hrc].
  exists rc, (spec_factor dest). split; [exact Hrc|].
  split; [reflexivity|].
  unfold spec_factor.
  assert (Hdiv : int_truediv 300 96 = Ok 3.125%float) by reflexivity.
  destruct (String.eqb_spec dest "figma") as [Heq|Hne].
  - split; [tauto|]. split; [|auto using factor_figma_exact, factor_default_exact].
    split; [intros H; exfalso; exact (float_3125_neq_1 H) | intros H; contradiction].
  - split; [|split; [tauto | auto using factor_figma_exact, factor_default_exact]].
    split; [intros H; exfalso; apply float_3125_neq_1; symmetry; exact H
           | intros H; contradiction].
Qed.

(** C2: in the table for ["figma"], [font.size] is [6 * 300/96],
    [figure.dpi] is [150 / (300/96)] and [savefig.dpi] is [300];
    [savefig.dpi] is [300] for every destination. *)
Theorem rc_params_figma :
  (exists rc_params scaler,
     get_rc_params "figma" = Ok (rc_params, scaler)
     /\ dict_get rc_params "font.size" = Some (RcNum (PyFloat 18.75))
     /\ dict_get rc_params "figure.dpi" = Some (RcNum (PyFloat 48))
     /\ dict_get rc_params "savefig.dpi" = Some (RcNum (PyInt 300)))
  /\ is_exactly 18.75%float (6 * (300 # 96))%Q
  /\ is_exactly 48%float (150 / (300 # 96))%Q
  /\ (forall dest : string,
        exists rc_params scaler,
          get_rc_params dest = Ok (rc_params, scaler)
          /\ dict_get rc_params "savefig.dpi" = Some (RcNum (PyInt 300))).
Proof.
  split; [|split; [|split]].
  - do 2 eexists. split; [reflexivity|]. repeat split.
  - vm_compute. reflexivity.
  - vm_compute. reflexivity.
  - intros dest. unfold get_rc_params.
    destruct (String.eqb dest "figma"); do 2 eexists; split; reflexivity.
Qed.

(** C9: the scaler [get_rc_params] returns is [scale] with the
    destination's factor, whatever the context variable holds. *)
Theorem scaler_ignores_context (dest : string) :
  exists rc_params scaler,
    get_rc_params dest = Ok (rc_params, scaler)
    /\ forall (values : list value) (ambient : option float)
              (rc : gmap string rc_value),
         let factor := if String.eqb dest "figma" then 3.125%float else 1%float in
         scaler values (State ambient rc)
         = scale values (Some factor) (State ambient rc)
         /\ (scaler values (State ambient rc)).2 = (scaler values (fresh rc)).2
         /\ forall x : num,
              scaler [Num x] (State ambient rc)
              = (State ambient rc, Num <$> Py.mul x (PyFloat factor)).
Proof.
  destruct (get_rc_params_eq dest) as [rc Hrc].
  eexists _, _. split; [exact Hrc|].
  intros values ambient rcp factor. split; [reflexivity|]. split.
  - apply scale_explicit_indep.
  - intros x. reflexivity.
Qed.

(** ** [destination] *)

Section Destination.
Variable rc_validate : string -> rc_value -> result rc_value.

(** One step of [rcParams.update]. *)
Lemma rc_update_cons (key : string) (val : rc_value)
    (rest : list (string * rc_value)) (st : state) :
  rc_update rc_validate ((key, val) :: rest) st
  = match rc_validate key val with
    | Ok v =>
        rc_update rc_validate rest
          (State (scaling_ctx st) (<[key:=v]> (rcParams st)))
    | Raise e => (st, Raise e)
    end.
Proof.
  cbn. unfold rc_setitem, mbind, M_bind.
  destruct (rc_validate key val); reflexivity.
Qed.

(** Updating the configuration never touches the context variable. *)
Lemma rc_update_ctx (rc : list (string * rc_value)) (st : state) :
  scaling_ctx (rc_update rc_validate rc st).1 = scaling_ctx st.
Proof.
  revert st. induction rc as [|[key val] rest IH]; intros st; [reflexivity|].
  rewrite rc_update_cons.
  destruct (rc_validate key val) as [v|e]; [|reflexivity].
  rewrite IH. reflexivity.
Qed.

(** An accepted table is applied in full. *)
Lemma rc_update_accepted (rc : list (string * rc_value)) (st : state) :
  accepted rc_validate rc -> (rc_update rc_validate rc st).2 = Ok tt.
Proof.
  intros Hacc. revert st.
  induction Hacc as [|[key val] rest [v Hv] _ IH]; intros st; [reflexivity|].
  cbn in Hv. rewrite rc_update_cons, Hv. apply IH.
Qed.

(** What [with destination(dest): body] does, step by step: the
    factor is published, the table is applied, the block runs, and
    whatever happened the state is put back. *)
Lemma destination_eq {A} (dest : string) (body : M A) (st : state) :
  exists rc_params scaler,
    get_rc_params dest = Ok (rc_params, scaler)
    /\ destination rc_validate dest body st
       = match rc_update rc_validate rc_params
                 (State (Some (spec_factor dest)) (rcParams st)) with
         | (st1, Ok _) => (st, (body st1).2)
         | (_, Raise e) => (st, Raise e)
         end.
Proof.
  destruct (get_rc_params_eq dest) as [rc Hrc].
  eexists _, _. split; [exact Hrc|].
  unfold destination.
  assert (Hone : forall s, scale [Num (PyFloat 1)] (Some (spec_factor dest)) s
                           = (s, Ok (Num (PyFloat (spec_factor dest))))).
  { intros s. unfold spec_factor. destruct (String.eqb dest "figma"); reflexivity. }
  destruct st as [ambient rcp].
  unfold mbind, M_bind, lift. rewrite Hrc, Hone. cbn.
  unfold rc_context, try_finally, mbind, M_bind. cbn.
  destruct (rc_update rc_validate rc _) as [st1 [[]|e]]; cbn; [|reflexivity].
  destruct (body st1) as [st2 r]; reflexivity.
Qed.

(** The state is put back on every path out of the scope. *)
Lemma destination_restores {A} (dest : string) (body : M A) (st : state) :
  (destination rc_validate dest body st).1 = st.
Proof.
  destruct (destination_eq dest body st) as (rc & scaler & _ & ->).
  destruct (rc_update rc_validate rc _) as [st1 [[]|e]]; reflexivity.
Qed.

(** Once the scope is entered, so that the block starts in [s], the
    scope yields what the block yields. *)
Lemma destination_runs {A} (dest : string) (body : M A) (st s : state) :
  (destination rc_validate dest observe st).2 = Ok s ->
  destination rc_validate dest body st = (st, (body s).2).
Proof.
  destruct (destination_eq dest observe st) as (rc & scaler & Hrc & ->).
  destruct (destination_eq dest body st) as (rc' & scaler' & Hrc' & ->).
  rewrite Hrc in Hrc'. injection Hrc' as <- _.
  destruct (rc_update rc_validate rc _) as [st1 [[]|e]]; cbn; intros H;
    [injection H as ->; reflexivity | discriminate H].
Qed.

(** The block of an entered scope sees the destination's factor. *)
Lemma destination_ambient (dest : string) (st s : state) :
  (destination rc_validate dest observe st).2 = Ok s ->
  scaling_ctx s = Some (spec_factor dest).
Proof.
  destruct (destination_eq dest observe st) as (rc & scaler & Hrc & ->).
  pose proof (rc_update_ctx rc (State (Some (spec_factor dest)) (rcParams st))) as Hctx.
  destruct (rc_update rc_validate rc _) as [st1 [[]|e]]; cbn in *; intros H;
    [injection H as <-; exact Hctx | discriminate H].
Qed.

(** When matplotlib takes the table, the scope is entered. *)
Lemma destination_enters (dest : string) (st : state) :
  accepts rc_validate dest ->
  exists s, (destination rc_validate dest observe st).2 = Ok s.
Proof.
  intros Hacc.
  destruct (destination_eq dest observe st) as (rc & scaler & Hrc & ->).
  pose proof (rc_update_accepted rc (State (Some (spec_factor dest)) (rcParams st))
                (Hacc _ _ Hrc)) as Hok.
  destruct (rc_update rc_validate rc _) as [st1 [[]|e]]; cbn in *;
    [eexists; reflexivity | discriminate Hok].
Qed.

End Destination.

(** [scale] of one float under the ambient factor. *)
Lemma scale_float_ambient (a : float) (st : state) :
  scale [Num (PyFloat a)] None st
  = (st, Ok (Num (PyFloat (PrimFloat.mul a (default scaling_default (scaling_ctx st)))))).
Proof. reflexivity. Qed.

(** [accept_all] takes every table. *)
Lemma accept_all_accepted (rc : list (string * rc_value)) : accepted accept_all rc.
Proof. induction rc; constructor; [eexists; reflexivity | assumption]. Qed.

Lemma accept_all_accepts (dest : string) : accepts accept_all dest.
Proof. intros rc scaler _. apply accept_all_accepted. Qed.

(** C6: starting with the context variable unset, [scale(2.0)] inside
    [with destination("figma")] is [2.0 * 300/96 = 6.25], and after the
    scope [scale(2.0)] is [2.0] again, the state being as before. *)
Theorem roundtrip_figma (rc_validate : string -> rc_value -> result rc_value)
    (rc : gmap string rc_value) :
  accepts rc_validate "figma" ->
  roundtrip rc_validate (fresh rc)
  = (fresh rc, Ok (Num (PyFloat 6.25), Num (PyFloat 2)))
  /\ is_exactly 6.25%float (2 * (300 # 96))%Q
  /\ is_exactly 2%float (2 * (1 # 1))%Q.
Proof.
  intros Hacc. split; [|split; vm_compute; reflexivity].
  destruct (destination_enters rc_validate "figma" (fresh rc) Hacc) as [s Hs].
  pose proof (destination_ambient rc_validate _ _ _ Hs) as Hctx.
  unfold roundtrip, mbind, M_bind.
  rewrite (destination_runs rc_validate "figma" _ (fresh rc) s Hs).
  rewrite scale_float_ambient, Hctx. reflexivity.
Qed.

Lemma roundtrip_figma_witness :
  accepts accept_all "figma"
  /\ roundtrip accept_all (fresh ∅)
     = (fresh ∅, Ok (Num (PyFloat 6.25), Num (PyFloat 2))).
Proof.
  split; [apply accept_all_accepts|].
  apply (roundtrip_figma accept_all ∅). apply accept_all_accepts.
Defined.

(** C7: with ["figma"] entered and ["default"] entered inside it,
    [scale(1.0)] is [1.0] in the inner scope, [300/96] once the inner
    scope is left, and [1.0] once the outer scope is left. *)
Theorem nesting_restores (rc_validate : string -> rc_value -> result rc_value)
    (rc : gmap string rc_value) :
  accepts rc_validate "figma" ->
  accepts rc_validate "default" ->
  nesting rc_validate (fresh rc)
  = (fresh rc, Ok (Num (PyFloat 1), Num (PyFloat 3.125), Num (PyFloat 1))).
Proof.
  intros Hfigma Hdefault.
  destruct (destination_enters rc_validate "figma" (fresh rc) Hfigma) as [s1 Hs1].
  pose proof (destination_ambient rc_validate _ _ _ Hs1) as Hctx1.
  destruct (destination_enters rc_validate "default" s1 Hdefault) as [s2 Hs2].
  pose proof (destination_ambient rc_validate _ _ _ Hs2) as Hctx2.
  unfold nesting, mbind, M_bind.
  rewrite (destination_runs rc_validate "figma" _ (fresh rc) s1 Hs1).
  rewrite (destination_runs rc_validate "default" _ s1 s2 Hs2).
  rewrite !scale_float_ambient, Hctx1, Hctx2. reflexivity.
Qed.

Lemma nesting_restores_witness :
  accepts accept_all "figma" /\ accepts accept_all "default"
  /\ nesting accept_all (fresh ∅)
     = (fresh ∅, Ok (Num (PyFloat 1), Num (PyFloat 3.125), Num (PyFloat 1))).
Proof.
  split; [apply accept_all_accepts|]. split; [apply accept_all_accepts|].
  apply (nesting_restores accept_all ∅); apply accept_all_accepts.
Defined.

(** C8: when the caller's block, started in state [s] by the scope,
    raises [e], the scope raises [e] and leaves the context variable
    and the configuration as they were before the scope was entered. *)
Theorem destination_exception_safe
    (rc_validate : string -> rc_value -> result rc_value)
    {A} (dest : string) (body : M A) (st s : state) (e : exn) :
  (destination rc_validate dest observe st).2 = Ok s ->
  (body s).2 = Raise e ->
  destination rc_validate dest body st = (st, Raise e)
  /\ scaling_ctx (destination rc_validate dest body st).1 = scaling_ctx st
  /\ rcParams (destination rc_validate dest body st).1 = rcParams st.
Proof.
  intros Hs He.
  rewrite (destination_runs rc_validate dest body st s Hs), He.
  repeat split.
Qed.

Lemma destination_exception_safe_witness :
  exists s,
    (destination accept_all "figma" observe (fresh ∅)).2 = Ok s
    /\ (clobber_and_raise s).2 = Raise (PyExc "boom")
    /\ destination accept_all "figma" clobber_and_raise (fresh ∅)
       = (fresh ∅, Raise (PyExc "boom")).
Proof.
  destruct (destination_enters accept_all "figma" (fresh ∅)
              (accept_all_accepts "figma")) as [s Hs].
  exists s. split; [exact Hs|]. split; [reflexivity|].
  apply (destination_exception_safe accept_all "figma" clobber_and_raise
           (fresh ∅) s (PyExc "boom") Hs).
  reflexivity.
Defined.

(** * Further properties of the code *)

(** ** [scale] *)

(** What a generator that ran to its end produced. *)
Lemma mapM_Ok_inv {A B} (g : A -> result B) (l : list A) (k : list B) :
  mapM g l = Ok k -> Forall2 (fun x y => g x = Ok y) l k.
Proof.
  revert k. induction l as [|x l IH]; intros k; cbn.
  - intros [= <-]. constructor.
  - destruct (g x) as [y|e] eqn:Hx; cbn; [|discriminate].
    destruct (mapM g l) as [k'|e] eqn:Hl; cbn; [|discriminate].
    intros [= <-]. constructor; [exact Hx | apply IH; reflexivity].
Qed.

(** A product with a float is a float. *)
Lemma mul_by_float_is_float (x : num) (f : float) (y : num) :
  Py.mul x (PyFloat f) = Ok y -> is_float_num y.
Proof.
  destruct x as [z|a]; cbn.
  - destruct (float_of_int z); cbn; [intros [= <-]; exact I | discriminate].
  - intros [= <-]. exact I.
Qed.

Lemma py_mul_is_float (v : value) (f : float) (y : num) :
  py_mul v f = Ok y -> is_float_num y.
Proof.
  destruct v as [n|t]; cbn; [apply mul_by_float_is_float | discriminate].
Qed.

(** [scale], with the state it leaves and the value it computes set
    apart. *)
Lemma scale_unfold (values : list value) (sf : option float) (st : state) :
  scale values sf st
  = (st,
     let f := match sf with
              | Some f => f
              | None => default scaling_default (scaling_ctx st)
              end in
     match values with
     | [Tuple t] => Tuple <$> mapM (fun v => py_mul (Num v) f) t
     | [Num n] => Num <$> py_mul (Num n) f
     | _ => Tuple <$> mapM (fun v => py_mul v f) values
     end).
Proof. destruct sf; destruct values as [|[n|t] [|v values]]; reflexivity. Qed.

Lemma mapM_floats {A} (g : A -> result num) (l : list A) (k : list num) :
  (forall x y, g x = Ok y -> is_float_num y) ->
  mapM g l = Ok k -> Forall is_float_num k.
Proof.
  intros Hg Hk. apply mapM_Ok_inv in Hk.
  induction Hk as [|x y l k Hxy _ IH]; constructor; eauto.
Qed.

(** X1: [scale] has no side effect: whatever the arguments, and also
    when it raises, the context variable and the configuration are as
    before the call. *)
Theorem scale_no_side_effect (values : list value) (sf : option float)
    (st : state) :
  (scale values sf st).1 = st.
Proof. rewrite scale_unfold. reflexivity. Qed.

(** X2: whatever [scale] returns is made of floats: an int argument
    comes back as a float, alone or inside the tuple. *)
Theorem scale_returns_floats (values : list value) (sf : option float)
    (st : state) (v : value) :
  (scale values sf st).2 = Ok v -> is_float_value v.
Proof.
  rewrite scale_unfold. cbn [snd].
  set (f := match sf with Some f => f | None => _ end). cbv zeta.
  assert (Hseq : forall {A} (g : A -> result num) (l : list A),
             (forall x y, g x = Ok y -> is_float_num y) ->
             Tuple <$> mapM g l = Ok v -> is_float_value v).
  { intros A g l Hg. destruct (mapM g l) as [k|e] eqn:Hk; cbn; [|discriminate].
    intros [= <-]. exact (mapM_floats g l k Hg Hk). }
  destruct values as [|[n|t] [|w values]].
  - apply Hseq. intros x y. apply py_mul_is_float.
  - destruct (py_mul (Num n) f) as [y|e] eqn:Hy; cbn; [|discriminate].
    intros [= <-]. exact (py_mul_is_float _ _ _ Hy).
  - apply Hseq. intros x y. apply py_mul_is_float.
  - apply Hseq. intros x y. apply py_mul_is_float.
  - apply Hseq. intros x y. apply py_mul_is_float.
Qed.

Lemma scale_returns_floats_witness :
  (scale [Num (PyInt 2); Num (PyInt 3)] (Some 1%float) (fresh ∅)).2
  = Ok (Tuple [PyFloat 2; PyFloat 3])
  /\ is_float_value (Tuple [PyFloat 2; PyFloat 3]).
Proof.
  split; [reflexivity|].
  apply (scale_returns_floats [Num (PyInt 2); Num (PyInt 3)] (Some 1%float) (fresh ∅)).
  reflexivity.
Defined.

(** X3: a tuple of floats is always scaled: no float argument makes
    [scale] raise, and the result holds the products in order. *)
Theorem scale_floats_never_raises (S : list float) (f : float) (st : state) :
  scale [Tuple (PyFloat <$> S)] (Some f) st
  = (st, Ok (Tuple ((fun a => PyFloat (PrimFloat.mul a f)) <$> S)))
  /\ (length S <> 1%nat ->
      scale (Num <$> (PyFloat <$> S)) (Some f) st
      = (st, Ok (Tuple ((fun a => PyFloat (PrimFloat.mul a f)) <$> S)))).
Proof.
  assert (H : mapM (fun v => py_mul (Num v) f) (PyFloat <$> S)
              = Ok ((fun a => PyFloat (PrimFloat.mul a f)) <$> S)).
  { apply mapM_Ok_Forall2. induction S; cbn; constructor; auto. }
  split.
  - rewrite scale_unfold. cbv zeta. rewrite H. reflexivity.
  - intros Hlen. rewrite scale_positional_as_tuple by (rewrite length_fmap; exact Hlen).
    rewrite scale_unfold. cbv zeta. rewrite H. reflexivity.
Qed.

(** X4: the exception of the first product that fails is the one
    [scale] raises: the elements before it were multiplied, the ones
    after it are not looked at. *)
Theorem scale_raises_first_failure (S1 S2 : list num) (x : num) (e : exn)
    (f : float) (st : state) :
  Forall (fun x => exists y, Py.mul x (PyFloat f) = Ok y) S1 ->
  Py.mul x (PyFloat f) = Raise e ->
  scale [Tuple (S1 ++ x :: S2)] (Some f) st = (st, Raise e).
Proof.
  intros H1 Hx. rewrite scale_unfold. cbv zeta.
  change (fun v : num => py_mul (Num v) f) with (fun v => Py.mul v (PyFloat f)).
  rewrite (mapM_Raise _ _ _ _ _ H1 Hx). reflexivity.
Qed.

Lemma scale_raises_first_failure_witness :
  scale [Tuple ([PyFloat 1] ++ PyInt (2 ^ 1024) :: [PyFloat 2])]
        (Some 1.5%float) (fresh ∅)
  = (fresh ∅, Raise OverflowError).
Proof.
  apply (scale_raises_first_failure [PyFloat 1] [PyFloat 2] (PyInt (2 ^ 1024))
           OverflowError 1.5%float (fresh ∅)).
  - repeat constructor. eexists. reflexivity.
  - vm_compute. reflexivity.
Defined.

(** X5: any number of positional numbers other than one is scaled
    exactly as the tuple of them, with or without an explicit factor. *)
Theorem scale_positional_is_tuple (l : list num) (sf : option float)
    (st : state) :
  length l <> 1%nat ->
  scale (Num <$> l) sf st = scale [Tuple l] sf st.
Proof.
  intros Hlen. rewrite !scale_unfold. f_equal. cbv zeta.
  destruct l as [|a [|b l]]; [reflexivity | contradiction Hlen; reflexivity |].
  change (Num <$> a :: b :: l) with (Num a :: Num b :: (Num <$> l)).
  cbv beta iota. f_equal. exact (mapM_py_mul_Num (a :: b :: l) _).
Qed.

Lemma scale_positional_is_tuple_witness :
  scale (Num <$> [PyInt 2; PyFloat 3]) None (fresh ∅)
  = scale [Tuple [PyInt 2; PyFloat 3]] None (fresh ∅).
Proof.
  apply (scale_positional_is_tuple [PyInt 2; PyFloat 3] None (fresh ∅)).
  cbn. discriminate.
Defined.

(** X6: with exactly one positional argument the shape follows the
    argument: a number gives the scalar [y] exactly when the
    one-element tuple of that number gives the one-element tuple of
    [y]; and both raise alike. *)
Theorem scale_one_argument_shape (x : num) (sf : option float) (st : state) :
  (forall y : num,
     (scale [Num x] sf st).2 = Ok (Num y)
     <-> (scale [Tuple [x]] sf st).2 = Ok (Tuple [y]))
  /\ (forall e : exn,
        (scale [Num x] sf st).2 = Raise e
        <-> (scale [Tuple [x]] sf st).2 = Raise e).
Proof.
  rewrite !scale_unfold. cbn [snd]. cbv zeta.
  set (f := match sf with Some f => f | None => _ end).
  cbn. destruct (Py.mul x (PyFloat f)) as [y'|e']; cbn.
  - split; [intros y; split; intros [= <-]; reflexivity|].
    intros e; split; discriminate.
  - split; [intros y; split; discriminate|].
    intros e; split; intros [= <-]; reflexivity.
Qed.

(** X7: a tuple passed among several positional arguments makes
    [scale] raise [TypeError], once the numbers before it have been
    multiplied. *)
Theorem scale_tuple_among_arguments (l1 : list num) (t : list num)
    (rest : list value) (f : float) (st : state) :
  (length l1 + length rest <> 0)%nat ->
  Forall (fun x => exists y, Py.mul x (PyFloat f) = Ok y) l1 ->
  scale ((Num <$> l1) ++ Tuple t :: rest) (Some f) st = (st, Raise TypeError).
Proof.
  intros Hlen Hdef. rewrite scale_unfold. cbv zeta. f_equal.
  assert (Hgen : Tuple <$> mapM (fun v => py_mul v f) ((Num <$> l1) ++ Tuple t :: rest)
                 = Raise TypeError).
  { rewrite (mapM_Raise (fun v => py_mul v f) (Num <$> l1) rest (Tuple t) TypeError);
      [reflexivity | | reflexivity].
    clear Hlen. induction Hdef as [|x l [y Hy] _ IH]; cbn; [constructor|].
    constructor; [exists y; exact Hy | exact IH]. }
  destruct l1 as [|a l1].
  - destruct rest as [|r rest]; [contradiction Hlen; reflexivity | exact Hgen].
  - destruct l1 as [|b l1]; exact Hgen.
Qed.

Lemma scale_tuple_among_arguments_witness :
  scale ((Num <$> [PyInt 1]) ++ Tuple [PyInt 2; PyInt 3] :: [Num (PyFloat 4)])
        (Some 2%float) (fresh ∅)
  = (fresh ∅, Raise TypeError).
Proof.
  apply (scale_tuple_among_arguments [PyInt 1] [PyInt 2; PyInt 3]
           [Num (PyFloat 4)] 2%float (fresh ∅)).
  - cbn. discriminate.
  - repeat constructor. eexists. reflexivity.
Defined.

(** ** [get_rc_params] *)

Lemma eqb_figma_false (dest : string) :
  dest <> "figma" -> String.eqb dest "figma" = false.
Proof. intros H. destruct (String.eqb_spec dest "figma"); [contradiction|reflexivity]. Qed.

Lemma rc_keys_NoDup : NoDup rc_keys.
Proof. apply (bool_decide_unpack (NoDup rc_keys)). vm_compute. exact I. Qed.

(** X8: every name other than ["figma"] is treated as the default
    name is: the same table and the same scaler. *)
Theorem get_rc_params_other_names (dest : string) :
  dest <> "figma" ->
  get_rc_params dest = get_rc_params destination_default.
Proof.
  intros H. unfold get_rc_params. rewrite (eqb_figma_false dest H). reflexivity.
Qed.

Lemma get_rc_params_other_names_witness :
  "adobe" <> "figma"
  /\ get_rc_params "adobe" = get_rc_params destination_default.
Proof.
  split; [discriminate|].
  apply (get_rc_params_other_names "adobe"). discriminate.
Defined.

(** X9: the tables of any two destinations have the same sixteen keys,
    each once, and the same value under every key that is not one of
    the eight text sizes or [figure.dpi]. *)
Theorem rc_params_differ_only_in_scaled (d1 d2 : string) :
  exists rc1 scaler1 rc2 scaler2,
    get_rc_params d1 = Ok (rc1, scaler1)
    /\ get_rc_params d2 = Ok (rc2, scaler2)
    /\ rc1.*1 = rc_keys /\ rc2.*1 = rc_keys /\ NoDup rc_keys
    /\ forall key : string,
         key ∉ scaled_keys -> dict_get rc1 key = dict_get rc2 key.
Proof.
  unfold get_rc_params.
  destruct (String.eqb d1 "figma"), (String.eqb d2 "figma");
    eexists _, _, _, _;
    (split; [reflexivity|]); (split; [reflexivity|]);
    (split; [reflexivity|]); (split; [reflexivity|]);
    (split; [exact rc_keys_NoDup|]);
    intros key Hkey; try reflexivity;
    repeat (cbn [dict_get];
            match goal with
            | |- context [String.eqb ?k key] =>
                destruct (String.eqb_spec k key) as [<-|_];
                [first [reflexivity
                       | exfalso; apply Hkey; unfold scaled_keys; set_solver]|]
            end);
    reflexivity.
Qed.

(** X10: a text size times the display resolution is the same for
    every destination: [font.size * figure.dpi = 900],
    [xtick.labelsize * figure.dpi = 750] and
    [figure.titlesize * figure.dpi = 1050], so what is shown on screen
    keeps its size. *)
Theorem display_size_invariant (dest : string) :
  exists rc_params scaler font_size xtick figure_titlesize figure_dpi,
    get_rc_params dest = Ok (rc_params, scaler)
    /\ dict_get rc_params "font.size" = Some (RcNum font_size)
    /\ dict_get rc_params "xtick.labelsize" = Some (RcNum xtick)
    /\ dict_get rc_params "figure.titlesize" = Some (RcNum figure_titlesize)
    /\ dict_get rc_params "figure.dpi" = Some (RcNum figure_dpi)
    /\ Py.mul font_size figure_dpi = Ok (PyFloat 900)
    /\ Py.mul xtick figure_dpi = Ok (PyFloat 750)
    /\ Py.mul figure_titlesize figure_dpi = Ok (PyFloat 1050).
Proof.
  unfold get_rc_params.
  destruct (String.eqb dest "figma");
    eexists _, _, _, _, _, _; repeat (split; [reflexivity|]); reflexivity.
Qed.

(** ** [destination] *)

Lemma dict_get_Some_elem {V} (d : list (string * V)) (key : string) (v : V) :
  dict_get d key = Some v -> (key, v) ∈ d.
Proof.
  induction d as [|[k w] d IH]; cbn; [discriminate|].
  destruct (String.eqb_spec k key) as [->|_].
  - intros [= ->]. left.
  - intros H. right. exact (IH H).
Qed.

Lemma dict_get_None_keys {V} (d : list (string * V)) (key : string) :
  dict_get d key = None -> key ∉ d.*1.
Proof.
  induction d as [|[k w] d IH]; cbn; [intros _; apply not_elem_of_nil|].
  destruct (String.eqb_spec k key) as [->|Hne]; [discriminate|].
  intros H. apply not_elem_of_cons.
  split; [intros Heq; apply Hne; symmetry; exact Heq | exact (IH H)].
Qed.

Lemma get_rc_params_keys (dest : string) rc scaler :
  get_rc_params dest = Ok (rc, scaler) -> rc.*1 = rc_keys.
Proof.
  unfold get_rc_params.
  destruct (String.eqb dest "figma"); intros [= <- _]; reflexivity.
Qed.

Section Scope.
Variable rc_validate : string -> rc_value -> result rc_value.

(** A setting outside the table is not touched by the update, whether
    the update goes through or not. *)
Lemma rc_update_lookup_other (rc : list (string * rc_value)) (st : state)
    (key : string) :
  key ∉ rc.*1 ->
  rcParams (rc_update rc_validate rc st).1 !! key = rcParams st !! key.
Proof.
  revert st. induction rc as [|[k v] rc IH]; intros st Hkey; [reflexivity|].
  apply not_elem_of_cons in Hkey as [Hne Hkey].
  rewrite rc_update_cons.
  destruct (rc_validate k v) as [v'|e]; [|reflexivity].
  rewrite (IH _ Hkey). cbn. apply lookup_insert_ne.
  intros Heq. apply Hne. symmetry. exact Heq.
Qed.

(** After an update that went through, every setting of a table
    without repeated keys is in place, as validated. *)
Lemma rc_update_lookup_in (rc : list (string * rc_value)) (st s : state)
    (key : string) (val : rc_value) :
  rc_update rc_validate rc st = (s, Ok tt) ->
  NoDup rc.*1 ->
  (key, val) ∈ rc ->
  exists v, rc_validate key val = Ok v /\ rcParams s !! key = Some v.
Proof.
  revert st. induction rc as [|[k v] rc IH]; intros st Hrun Hnd Hin.
  - apply elem_of_nil in Hin. contradiction.
  - rewrite rc_update_cons in Hrun.
    apply NoDup_cons in Hnd as [Hk Hnd].
    destruct (rc_validate k v) as [v'|e] eqn:Hv; [|discriminate Hrun].
    apply elem_of_cons in Hin as [[= -> ->]|Hin].
    + exists v'. split; [exact Hv|].
      pose proof (rc_update_lookup_other rc
                    (State (scaling_ctx st) (<[k:=v']> (rcParams st))) k Hk) as Hl.
      rewrite Hrun in Hl. cbn in Hl. rewrite Hl. apply lookup_insert_eq.
    + exact (IH _ Hrun Hnd Hin).
Qed.

(** A table with a setting matplotlib rejects is not applied: the
    update raises what the validator raised for a setting of the
    table. *)
Lemma rc_update_rejects (rc : list (string * rc_value)) (st : state) :
  Exists (fun kv => exists e, rc_validate kv.1 kv.2 = Raise e) rc ->
  exists e,
    (exists key val, (key, val) ∈ rc /\ rc_validate key val = Raise e)
    /\ (rc_update rc_validate rc st).2 = Raise e.
Proof.
  revert st. induction rc as [|[k v] rc IH]; intros st Hex.
  - apply Exists_nil in Hex. contradiction.
  - rewrite rc_update_cons.
    destruct (rc_validate k v) as [v'|e] eqn:Hv.
    + apply Exists_cons in Hex as [[e He]|Hex]; [cbn in He; congruence|].
      destruct (IH (State (scaling_ctx st) (<[k:=v']> (rcParams st))) Hex)
        as (e & (key & val & Hin & He) & Hrun).
      exists e. split; [|exact Hrun].
      exists key, val. split; [right; exact Hin | exact He].
    + exists e. split; [|reflexivity].
      exists k, v. split; [left | exact Hv].
Qed.

(** The state in which the block of an entered scope starts. *)
Lemma destination_entered_state (dest : string) (st s : state) :
  (destination rc_validate dest observe st).2 = Ok s ->
  exists rc_params,
    get_rc_params dest
    = Ok (rc_params, fun values => scale values (Some (spec_factor dest)))
    /\ rc_update rc_validate rc_params
         (State (Some (spec_factor dest)) (rcParams st)) = (s, Ok tt).
Proof.
  destruct (get_rc_params_eq dest) as [rc Hrc].
  destruct (destination_eq rc_validate dest observe st) as (rc' & scaler & Hrc' & ->).
  rewrite Hrc in Hrc'. injection Hrc' as <- _.
  exists rc. split; [exact Hrc|].
  destruct (rc_update rc_validate rc _) as [st1 [[]|e]]; cbn in *;
    [congruence | discriminate].
Qed.

(** X11: inside an entered scope, [scale] without an explicit factor
    and the scaler [get_rc_params] returns for the destination agree
    on every argument list, whatever the context variable held
    before. *)
Theorem scale_in_scope_is_scaler (dest : string) (st s : state) :
  (destination rc_validate dest observe st).2 = Ok s ->
  exists rc_params scaler,
    get_rc_params dest = Ok (rc_params, scaler)
    /\ forall values : list value, scale values None s = scaler values s.
Proof.
  intros Hs.
  destruct (get_rc_params_eq dest) as [rc Hrc].
  eexists _, _. split; [exact Hrc|].
  intros values. cbv beta.
  rewrite scale_ambient, (destination_ambient rc_validate dest st s Hs).
  reflexivity.
Qed.


(** X13: when matplotlib rejects a setting of the table, the scope
    raises the validator's exception, the block is never run, and the
    state is as before. *)
Theorem rejected_setting_skips_block (dest : string) rc_params scaler
    (st : state) :
  get_rc_params dest = Ok (rc_params, scaler) ->
  Exists (fun kv => exists e, rc_validate kv.1 kv.2 = Raise e) rc_params ->
  exists e,
    (exists key val, (key, val) ∈ rc_params /\ rc_validate key val = Raise e)
    /\ forall (A : Type) (body : M A),
         destination rc_validate dest body st = (st, Raise e).
Proof.
  intros Hrc Hex.
  destruct (rc_update_rejects rc_params
              (State (Some (spec_factor dest)) (rcParams st)) Hex)
    as (e & Hin & Hrun).
  exists e. split; [exact Hin|].
  intros A body.
  destruct (destination_eq rc_validate dest body st) as (rc' & scaler' & Hrc' & ->).
  rewrite Hrc in Hrc'. injection Hrc' as <- _.
  destruct (rc_update rc_validate rc_params _) as [st1 [[]|e']]; cbn in Hrun;
    congruence.
Qed.

(** X14: scopes nest for any two destinations and any float: the inner
    block sees the inner factor, the rest of the outer block the outer
    factor again, and the code after both the factor that was ambient
    before; the state ends as it started. *)
Theorem nested_scopes_restore (d1 d2 : string) (x : float) (st : state) :
  accepts rc_validate d1 ->
  accepts rc_validate d2 ->
  let f1 := if String.eqb d1 "figma" then 3.125%float else 1%float in
  let f2 := if String.eqb d2 "figma" then 3.125%float else 1%float in
  let f0 := default scaling_default (scaling_ctx st) in
  nested_scopes rc_validate d1 d2 x st
  = (st, Ok (Num (PyFloat (PrimFloat.mul x f2)),
             Num (PyFloat (PrimFloat.mul x f1)),
             Num (PyFloat (PrimFloat.mul x f0)))).
Proof.
  intros H1 H2 f1 f2 f0.
  destruct (destination_enters rc_validate d1 st H1) as [s1 Hs1].
  pose proof (destination_ambient rc_validate _ _ _ Hs1) as Hctx1.
  destruct (destination_enters rc_validate d2 s1 H2) as [s2 Hs2].
  pose proof (destination_ambient rc_validate _ _ _ Hs2) as Hctx2.
  unfold nested_scopes, mbind, M_bind.
  rewrite (destination_runs rc_validate d1 _ st s1 Hs1).
  rewrite (destination_runs rc_validate d2 _ s1 s2 Hs2).
  rewrite !scale_float_ambient, Hctx1, Hctx2. reflexivity.
Qed.

(** X15: inside an entered scope every setting of the table is in
    [rcParams], as the validator returned it, and every setting the
    table does not name is what it was before the scope. *)
Theorem scope_applies_table (dest : string) (st s : state) :
  (destination rc_validate dest observe st).2 = Ok s ->
  exists rc_params scaler,
    get_rc_params dest = Ok (rc_params, scaler)
    /\ (forall (key : string) (val : rc_value),
          dict_get rc_params key = Some val ->
          exists v, rc_validate key val = Ok v /\ rcParams s !! key = Some v)
    /\ (forall key : string,
          dict_get rc_params key = None ->
          rcParams s !! key = rcParams st !! key).
Proof.
  intros Hs.
  destruct (destination_entered_state dest st s Hs) as (rc & Hrc & Hrun).
  eexists _, _. split; [exact Hrc|]. split.
  - intros key val Hget.
    apply (rc_update_lookup_in rc _ s key val Hrun).
    + rewrite (get_rc_params_keys dest _ _ Hrc). exact rc_keys_NoDup.
    + exact (dict_get_Some_elem _ _ _ Hget).
  - intros key Hget.
    pose proof (rc_update_lookup_other rc
                  (State (Some (spec_factor dest)) (rcParams st)) key
                  (dict_get_None_keys _ _ Hget)) as Hl.
    rewrite Hrun in Hl. exact Hl.
Qed.

(** X16: a scope for any name other than ["figma"] is the scope for
    the default name, the one [destination()] takes without an
    argument. *)
Theorem destination_other_names {A} (dest : string) (body : M A) (st : state) :
  dest <> "figma" ->
  destination rc_validate dest body st
  = destination rc_validate destination_default body st.
Proof.
  intros H. unfold destination.
  replace (get_rc_params dest) with (get_rc_params destination_default);
    [reflexivity|].
  unfold get_rc_params. rewrite (eqb_figma_false dest H). reflexivity.
Qed.

End Scope.

Lemma scale_in_scope_is_scaler_witness :
  exists s,
    (destination accept_all "figma" observe (State (Some 9%float) ∅)).2 = Ok s
    /\ exists rc_params scaler,
         get_rc_params "figma" = Ok (rc_params, scaler)
         /\ forall values : list value, scale values None s = scaler values s.
Proof.
  destruct (destination_enters accept_all "figma" (State (Some 9%float) ∅)
              (accept_all_accepts "figma")) as [s Hs].
  exists s. split; [exact Hs|].
  exact (scale_in_scope_is_scaler accept_all "figma" (State (Some 9%float) ∅) s Hs).
Defined.

Lemma rejected_setting_skips_block_witness :
  exists rc_params scaler,
    get_rc_params "figma" = Ok (rc_params, scaler)
    /\ Exists (fun kv => exists e, reject_key "figure.labelsize" kv.1 kv.2 = Raise e)
         rc_params
    /\ exists e,
         (exists key val,
            (key, val) ∈ rc_params
            /\ reject_key "figure.labelsize" key val = Raise e)
         /\ forall (A : Type) (body : M A),
              destination (reject_key "figure.labelsize") "figma" body (fresh ∅)
              = (fresh ∅, Raise e).
Proof.
  eexists _, _. split; [reflexivity|].
  split.
  - repeat first [ solve [apply Exists_cons_hd; exists KeyError; reflexivity]
                 | apply Exists_cons_tl ].
  - eapply rejected_setting_skips_block; [reflexivity|].
    repeat first [ solve [apply Exists_cons_hd; exists KeyError; reflexivity]
                 | apply Exists_cons_tl ].
Defined.

Lemma nested_scopes_restore_witness :
  accepts accept_all "figma" /\ accepts accept_all "inkscape"
  /\ nested_scopes accept_all "figma" "inkscape" 2%float (State (Some 1.5%float) ∅)
     = (State (Some 1.5%float) ∅,
        Ok (Num (PyFloat 2), Num (PyFloat 6.25), Num (PyFloat 3))).
Proof.
  split; [apply accept_all_accepts|]. split; [apply accept_all_accepts|].
  apply (nested_scopes_restore accept_all "figma" "inkscape" 2%float
           (State (Some 1.5%float) ∅));
    apply accept_all_accepts.
Defined.

Lemma scope_applies_table_witness :
  exists s,
    (destination accept_all "figma" observe (fresh ∅)).2 = Ok s
    /\ exists rc_params scaler,
         get_rc_params "figma" = Ok (rc_params, scaler)
         /\ (forall (key : string) (val : rc_value),
               dict_get rc_params key = Some val ->
               exists v, accept_all key val = Ok v /\ rcParams s !! key = Some v)
         /\ (forall key : string,
               dict_get rc_params key = None ->
               rcParams s !! key = rcParams (fresh ∅) !! key).
Proof.
  destruct (destination_enters accept_all "figma" (fresh ∅)
              (accept_all_accepts "figma")) as [s Hs].
  exists s. split; [exact Hs|].
  exact (scope_applies_table accept_all "figma" (fresh ∅) s Hs).
Defined.

Lemma destination_other_names_witness :
  "adobe" <> "figma"
  /\ destination accept_all "adobe" clobber_and_raise (fresh ∅)
     = destination accept_all destination_default clobber_and_raise (fresh ∅).
Proof.
  split; [discriminate|].
  apply (destination_other_names accept_all "adobe" clobber_and_raise (fresh ∅)).
  discriminate.
Defined.

(** X17: an entered scope runs the block once, in the entered state,
    and hands on its outcome untouched: the value it returned or the
    exception it raised. *)
Theorem scope_outcome_is_block_outcome
    (rc_validate : string -> rc_value -> result rc_value)
    {A} (dest : string) (body : M A) (st s : state) :
  (destination rc_validate dest observe st).2 = Ok s ->
  (destination rc_validate dest body st).2 = (body s).2.
Proof.
  intros Hs.
  destruct (destination_entered_state rc_validate dest st s Hs) as (rc & Hrc & Hrun).
  destruct (destination_eq rc_validate dest body st) as (rc' & scaler & Hrc' & ->).
  rewrite Hrc in Hrc'. injection Hrc' as <- _.
  rewrite Hrun. reflexivity.
Qed.

Lemma scope_outcome_is_block_outcome_witness :
  exists s,
    (destination accept_all "default" observe (fresh ∅)).2 = Ok s
    /\ (destination accept_all "default" (scale [Num (PyInt 3)] None) (fresh ∅)).2
       = (scale [Num (PyInt 3)] None s).2.
Proof.
  destruct (destination_enters accept_all "default" (fresh ∅)
              (accept_all_accepts "default")) as [s Hs].
  exists s. split; [exact Hs|].
  exact (scope_outcome_is_block_outcome accept_all "default"
           (scale [Num (PyInt 3)] None) (fresh ∅) s Hs).
Defined.
